(** * express-jobly: the jobs model and the partial-update SQL helper

    A shallow embedding of [models/job.js] ([Job.create], [Job.findAll],
    [Job.get], [Job.update], [Job.remove]) and of the helper
    [sqlForPartialUpdate] it imports from [helpers/sql.js], with the
    properties of the positional-parameter SQL they build and of the
    outcomes they give on the driver's replies.

    JavaScript values are an inductive type with the language's truthiness
    and string conversion; an object is the list of its own enumerable
    properties in iteration order; the field map is a finite map; the
    database driver is a black box threaded through a small state, trace
    and exception monad. *)

From Stdlib Require Import ZArith.
From stdpp Require Import gmap strings list pretty.

Local Open Scope string_scope.
Local Open Scope list_scope.
Local Open Scope nat_scope.

(** ** JavaScript values *)

(** The line feed and the double quote, which the SQL templates contain. *)
Definition nl : string := String (Ascii.ascii_of_nat 10) EmptyString.
Definition dq : string := String (Ascii.ascii_of_nat 34) EmptyString.

(** The primitive values the model passes around. Numbers are the integers
    (every number in the sources and their tests is one); NaN, fractions and
    numbers printed in exponent notation are not represented. *)
Inductive value : Type :=
  | VUndefined
  | VNull
  | VBool (b : bool)
  | VNum (z : Z)
  | VStr (s : string).

(** ToBoolean: what [if (v)] and [!v] test. *)
Definition toBoolean (v : value) : bool :=
  match v with
  | VUndefined | VNull => false
  | VBool b => b
  | VNum z => negb (z =? 0)%Z
  | VStr s => negb (String.eqb s "")
  end.

(** ToString: what a template literal [`${v}`] splices in. *)
Definition toString (v : value) : string :=
  match v with
  | VUndefined => "undefined"
  | VNull => "null"
  | VBool true => "true"
  | VBool false => "false"
  | VNum z => pretty z
  | VStr s => s
  end.

(** A plain object: its own properties, in the order [Object.keys] and
    [Object.values] enumerate them. *)
Abbreviation object := (list (string * value)).

(** Property read [o.k]: [undefined] when the object has no such key. *)
Fixpoint getProp (o : object) (k : string) : value :=
  match o with
  | [] => VUndefined
  | (k', v) :: o' => if String.eqb k' k then v else getProp o' k
  end.

Definition keys (o : object) : list string := o.*1.
Definition objectValues (o : object) : list value := o.*2.

(** A default parameter [x = d] takes [d] only when the argument is
    [undefined] (or missing). *)
Definition defaultParam (arg d : value) : value :=
  match arg with
  | VUndefined => d
  | _ => arg
  end.

(** [Array.prototype.join] on an array of strings. *)
Fixpoint join (sep : string) (l : list string) : string :=
  match l with
  | [] => ""
  | [x] => x
  | x :: l' => x +:+ sep +:+ join sep l'
  end.

(** Whether [needle] occurs in [hay]. *)
Fixpoint includes (needle hay : string) : bool :=
  String.prefix needle hay ||
  match hay with
  | EmptyString => false
  | String _ hay' => includes needle hay'
  end.

(** How many times the character [c] occurs in [s]; with the dollar sign,
    the number of positional placeholders of a statement whose text has no
    other use of it. *)
Fixpoint countChar (c : Ascii.ascii) (s : string) : nat :=
  match s with
  | EmptyString => 0
  | String c' s' => (if Ascii.eqb c' c then 1 else 0) + countChar c s'
  end.

Definition placeholders (sql : string) : nat :=
  countChar (Ascii.ascii_of_nat 36) sql.

(** ** Errors (expressError.js) and the effects of a model method *)

(** The two application error classes the models throw, and whatever the
    database driver itself throws. *)
Inductive exn : Type :=
  | BadRequestError (message : string)
  | NotFoundError (message : string)
  | DriverError (message : string).

Definition isBadRequest (e : exn) : bool :=
  match e with BadRequestError _ => true | _ => false end.
Definition isNotFound (e : exn) : bool :=
  match e with NotFoundError _ => true | _ => false end.

(** A result row is an object; a statement has its text and, when the call
    passes them, its bound values. *)
Record statement : Type := Statement {
  text : string;
  bindings : option (list value)
}.

Inductive event : Type :=
  | Query (q : statement)
  | ConsoleLog (rows : list object).

Module Eff.
Section Driver.
(** The driver: from the database and a statement, the database after it
    and either the rows or the driver's own failure. *)
Context {DB : Type}.
Variable exec : DB → statement → DB * (string + list object).

Record world : Type := World { database : DB; trace : list event }.

Definition M (A : Type) : Type := world → world * (exn + A).

Definition ret {A} (a : A) : M A := λ w, (w, inr a).
Definition throw {A} (e : exn) : M A := λ w, (w, inl e).
Definition bind {A B} (m : M A) (k : A → M B) : M B := λ w,
  match m w with
  | (w', inl e) => (w', inl e)
  | (w', inr a) => k a w'
  end.

(** [await db.query(text, bindings)], giving [result.rows]. *)
Definition query (q : statement) : M (list object) := λ w,
  let '(d, r) := exec (database w) q in
  let w' := World d (trace w ++ [Query q]) in
  match r with
  | inl msg => (w', inl (DriverError msg))
  | inr rows => (w', inr rows)
  end.

Definition consoleLog (rows : list object) : M unit := λ w,
  (World (database w) (trace w ++ [ConsoleLog rows]), inr tt).
End Driver.
End Eff.

Notation "'let!' x ':=' m 'in' k" := (Eff.bind m (λ x, k))
  (at level 10, x name, m at level 100, k at level 200, only parsing).

(** ** helpers/sql.js *)

Module Sql.

(** What the helper returns: the SET clause and its bound values. *)
Record clause : Type := Clause {
  setCols : string;
  values : list value
}.

(** Modelled from the spec: the column a key is written to, which is the
    field map's entry for it and the key itself when the map has none
    (helpers/sql.js is not among the sources). *)
Definition column (jsToSql : gmap string string) (colName : string) : string :=
  default colName (jsToSql !! colName).

(** Modelled from the spec: the fragment of the key at 0-based index
    [idx], the quoted column followed by [=$] and the 1-based position
    (helpers/sql.js is not among the sources). *)
Definition fragment (jsToSql : gmap string string) (idx : nat)
    (colName : string) : string :=
  dq +:+ column jsToSql colName +:+ dq +:+ "=$" +:+ pretty (idx + 1).

(** Modelled from the spec: [sqlForPartialUpdate(dataToUpdate, jsToSql)]
    of helpers/sql.js, which is not among the sources (its test file and
    its caller [Job.update] are). An empty payload is refused before
    anything is built; otherwise each key, in iteration order, gives one
    fragment, the fragments are joined with a comma and a space, and the
    payload's values are returned in the same order. *)
Definition sqlForPartialUpdate (dataToUpdate : object)
    (jsToSql : gmap string string) : exn + clause :=
  let ks := keys dataToUpdate in
  if decide (length ks = 0) then
    inl (BadRequestError "No data provided for update")
  else
    let cols := imap (fragment jsToSql) ks in
    inr (Clause (join ", " cols) (objectValues dataToUpdate)).

End Sql.

(** ** models/job.js *)

Module Job.

(** The three locals [filters], [values] and [idx] of [findAll]. *)
Record filterState : Type := FilterState {
  filters : list string;
  values : list value;
  idx : nat
}.

(** The template literals of the three predicates, by the value of [idx]
    they are built at. *)
Definition titlePredicate (idx : nat) : string :=
  "LOWER(title) LIKE $" +:+ pretty idx.
Definition salaryPredicate (idx : nat) : string :=
  "salary >= $" +:+ pretty idx.
Definition equityPredicate (idx : nat) : string :=
  "equity !=  $" +:+ pretty idx.

(** The head of [findAll] up to its last guarded block: the default
    parameters, then the three blocks in the order of the code, each
    pushing its predicate and its bound value and bumping [idx] when its
    criterion is truthy. *)
Definition buildFilters (title minSalary hasEquity : value) : filterState :=
  let title := defaultParam title VNull in
  let minSalary := defaultParam minSalary VNull in
  let hasEquity := defaultParam hasEquity VNull in
  let st := FilterState [] [] 1 in
  let st :=
    if toBoolean title then
      FilterState (filters st ++ [titlePredicate (idx st)])
                  (values st ++ [VStr ("%" +:+ toString title +:+ "%")])
                  (idx st + 1)
    else st in
  let st :=
    if toBoolean minSalary then
      FilterState (filters st ++ [salaryPredicate (idx st)])
                  (values st ++ [minSalary])
                  (idx st + 1)
    else st in
  let st :=
    if toBoolean hasEquity then
      FilterState (filters st ++ [equityPredicate (idx st)])
                  (values st ++ [VStr "0"])
                  (idx st + 1)
    else st in
  st.

(** The statement of the filtered branch, around the joined predicates. *)
Definition filteredSql (joined : string) : string :=
  "SELECT title," +:+ nl +:+
  "                salary," +:+ nl +:+
  "                equity," +:+ nl +:+
  "                company_handle AS " +:+ dq +:+ "companyHandle" +:+ dq +:+ nl +:+
  "        FROM jobs" +:+ nl +:+
  "        WHERE (" +:+ joined +:+ ")" +:+ nl +:+
  "        ORDER BY title".

(** The statement of the branch without filters. *)
Definition unfilteredSql : string :=
  "SELECT title," +:+ nl +:+
  "                salary," +:+ nl +:+
  "                equity," +:+ nl +:+
  "                company_handle AS " +:+ dq +:+ "companyHandle" +:+ dq +:+ nl +:+
  "         FROM jobs" +:+ nl +:+
  "         ORDER BY title".

(** The statement of [update], around the SET clause and the placeholder
    of the id. *)
Definition updateSql (setCols idVarIdx : string) : string :=
  "UPDATE jobs " +:+ nl +:+
  "                      SET " +:+ setCols +:+ " " +:+ nl +:+
  "                      WHERE id = " +:+ idVarIdx +:+ " " +:+ nl +:+
  "                      RETURNING id," +:+ nl +:+
  "                                title," +:+ nl +:+
  "                                salary," +:+ nl +:+
  "                                equity," +:+ nl +:+
  "                                company_handle AS " +:+ dq +:+ "companyHandle" +:+ dq.

(** The field map [update] hands to the helper. *)
Definition jsToSql : gmap string string :=
  {[ "companyHandle" := "company_handle" ]}.

(** The [data] argument of [update]: missing, [null], or a plain object. *)
Inductive data : Type :=
  | DUndefined
  | DNull
  | DObject (o : object).

(** The two statements of [create]. *)
Definition duplicateCheckSql : string :=
  "SELECT title" +:+ nl +:+
  "           FROM jobs" +:+ nl +:+
  "           WHERE company_handle = $1" +:+ nl +:+
  "           AND title = $2".

Definition insertSql : string :=
  "INSERT INTO jobs" +:+ nl +:+
  "           (title, salary, equity, company_handle)" +:+ nl +:+
  "           VALUES ($1, $2, $3, $4)" +:+ nl +:+
  "           RETURNING id, title, salary, equity, company_handle AS " +:+ dq +:+ "companyHandle" +:+ dq.

(** The two statements of [get]. *)
Definition getJobSql : string :=
  "SELECT id," +:+ nl +:+
  "                  title," +:+ nl +:+
  "                  salary," +:+ nl +:+
  "                  equity," +:+ nl +:+
  "                  company_handle AS company" +:+ nl +:+
  "           FROM jobs" +:+ nl +:+
  "           WHERE id = $1".

Definition getCompanySql : string :=
  "SELECT handle, " +:+ nl +:+
  "                  name, " +:+ nl +:+
  "                  description, " +:+ nl +:+
  "                  num_employees," +:+ nl +:+
  "                  logo_url" +:+ nl +:+
  "          FROM companies " +:+ nl +:+
  "          WHERE handle = $1".

(** The statement of [remove]. *)
Definition removeSql : string :=
  "DELETE" +:+ nl +:+
  "           FROM jobs" +:+ nl +:+
  "           WHERE id = $1" +:+ nl +:+
  "           RETURNING id".

(** What a property of the job [get] returns can hold: a primitive, as in
    a result row, or the company row assigned to it. *)
Inductive field : Type :=
  | Prim (v : value)
  | Row (o : object).

(** A result row seen as such an object. *)
Definition ofRow (o : object) : list (string * field) :=
  prod_map id Prim <$> o.

(** Property read and property assignment [o.k = x]: an existing key keeps
    its place and takes the new value, a new key goes last. *)
Fixpoint getField (o : list (string * field)) (k : string) : field :=
  match o with
  | [] => Prim VUndefined
  | (k', x) :: o' => if String.eqb k' k then x else getField o' k
  end.

Fixpoint setField (o : list (string * field)) (k : string) (x : field)
    : list (string * field) :=
  match o with
  | [] => [(k, x)]
  | (k', x') :: o' =>
    if String.eqb k' k then (k', x) :: o' else (k', x') :: setField o' k x
  end.

(** [rows[0]] as the value of a property: the row, or [undefined]. *)
Definition firstRow (rows : list object) : field :=
  match head rows with
  | Some row => Row row
  | None => Prim VUndefined
  end.

Section Methods.
Context {DB : Type}.
Variable exec : DB → statement → DB * (string + list object).

(** [static async findAll(title=null, minSalary=null, hasEquity=null)] *)
Definition findAll (title minSalary hasEquity : value)
    : Eff.M (DB:=DB) (list object) :=
  let st := buildFilters title minSalary hasEquity in
  if 0 <? length (filters st) then
    let! rows := Eff.query exec
      (Statement (filteredSql (join " AND " (filters st)))
                 (Some (values st))) in
    Eff.ret rows
  else
    let! rows := Eff.query exec (Statement unfilteredSql None) in
    let! _ := Eff.consoleLog rows in
    Eff.ret rows.

(** [static async update(id, data)], over the helper it imports. *)
Definition updateWith
    (helper : object → gmap string string → exn + Sql.clause)
    (id : value) (d : data) : Eff.M (DB:=DB) object :=
  match d with
  | DUndefined | DNull => Eff.throw (BadRequestError "Data is required")
  | DObject o =>
    if toBoolean (getProp o "id") || toBoolean (getProp o "companyHandle")
    then Eff.throw
           (BadRequestError "Job id and companyHandle can not be changed")
    else
      match helper o jsToSql with
      | inl e => Eff.throw e
      | inr c =>
        let idVarIdx := "$" +:+ pretty (length (Sql.values c) + 1) in
        let querySql := updateSql (Sql.setCols c) idVarIdx in
        let! rows := Eff.query exec
          (Statement querySql (Some (Sql.values c ++ [id]))) in
        match head rows with
        | None =>
          Eff.throw (NotFoundError ("No job with id of " +:+ toString id))
        | Some job => Eff.ret job
        end
      end
  end.

Definition update : value → data → Eff.M (DB:=DB) object :=
  updateWith Sql.sqlForPartialUpdate.

(** [static async create({ title, salary, equity, companyHandle })], on a
    plain object; the result is [result.rows[0]], which is [undefined]
    when the INSERT returns no row. *)
Definition create (data : object) : Eff.M (DB:=DB) (option object) :=
  let title := getProp data "title" in
  let salary := getProp data "salary" in
  let equity := getProp data "equity" in
  let companyHandle := getProp data "companyHandle" in
  let! duplicateCheck := Eff.query exec
    (Statement duplicateCheckSql (Some [companyHandle; title])) in
  match head duplicateCheck with
  | Some _ =>
    Eff.throw (BadRequestError ("Duplicate job: " +:+ toString companyHandle
                                +:+ ", " +:+ toString title))
  | None =>
    let! rows := Eff.query exec
      (Statement insertSql (Some [title; salary; equity; companyHandle])) in
    Eff.ret (head rows)
  end.

(** [static async get(id)] *)
Definition get (id : value) : Eff.M (DB:=DB) (list (string * field)) :=
  let! jobRes := Eff.query exec (Statement getJobSql (Some [id])) in
  match head jobRes with
  | None => Eff.throw (NotFoundError ("No job with id of " +:+ toString id))
  | Some job =>
    let! companyRes := Eff.query exec
      (Statement getCompanySql (Some [getProp job "company"])) in
    Eff.ret (setField (ofRow job) "company" (firstRow companyRes))
  end.

(** [static async remove(id)], which returns [undefined]. *)
Definition remove (id : value) : Eff.M (DB:=DB) unit :=
  let! rows := Eff.query exec (Statement removeSql (Some [id])) in
  match head rows with
  | None => Eff.throw (NotFoundError ("No job: " +:+ toString id))
  | Some _ => Eff.ret tt
  end.
End Methods.

End Job.

(** ** The specification's own wording, and the fixtures of the tests *)


(** As the specification words it: the predicate of the boolean flag, the
    column, the operator and the placeholder each one space apart. *)
Definition specFlagPredicate (idx : nat) : string :=
  "equity != $" +:+ pretty idx.

(** The statements a trace records, in the order they were executed. *)
Definition statements (t : list event) : list statement :=
  omap (λ ev, match ev with Query q => Some q | ConsoleLog _ => None end) t.

(** A criterion that was not passed, or passed as [null]. *)
Definition isAbsent (criterion : value) : bool :=
  match criterion with
  | VUndefined | VNull => true
  | _ => false
  end.

Module Fixture.

(** A jobs table in which no row matches: every statement returns no rows
    and leaves the database as it is. *)
Definition noRows : unit → statement → unit * (string + list object) :=
  λ d _, (d, inr []).

Definition start : Eff.world (DB:=unit) := Eff.World tt [].

(** The payload and field map of the helper's own test. *)
Definition dataToUpdate : object :=
  [("numEmployees", VNum 5); ("description", VStr "Description 3")].
Definition jsToSql : gmap string string :=
  {[ "numEmployees" := "num_employees"; "description" := "description" ]}.

(** The payload of the model's update tests. *)
Definition updateData : object :=
  [("title", VStr "New"); ("salary", VNum 999999); ("equity", VStr "0.05")].

(** A driver that plays a script: each statement takes the next reply, and
    returns no rows once the script is over. *)
Definition scripted (script : list (string + list object)) (q : statement)
    : list (string + list object) * (string + list object) :=
  match script with
  | [] => ([], inr [])
  | reply :: script' => (script', reply)
  end.

Definition scriptedStart (script : list (string + list object))
    : Eff.world (DB:=list (string + list object)) :=
  Eff.World script [].

(** The job the model's tests create, and rows as the statements of the
    model return them. *)
Definition newJob : object :=
  [("title", VStr "New Job"); ("salary", VNum 60000);
   ("equity", VStr "0.1"); ("companyHandle", VStr "c1")].
Definition insertedRow : object := ("id", VNum 1) :: newJob.
Definition jobRow : object :=
  [("id", VNum 1); ("title", VStr "j1"); ("salary", VNum 100000);
   ("equity", VStr "0"); ("company", VStr "c1")].
Definition companyRow : object :=
  [("handle", VStr "c1"); ("name", VStr "C1");
   ("description", VStr "Desc1"); ("num_employees", VNum 1);
   ("logo_url", VStr "http://c1.img")].

End Fixture.

(** ** Properties of helpers/sql.js *)

Module SqlFacts.
Import Sql.

Lemma keys_length (o : object) : length (keys o) = length o.
Proof. unfold keys. apply length_fmap. Qed.

Lemma objectValues_length (o : object) : length (objectValues o) = length o.
Proof. unfold objectValues. apply length_fmap. Qed.

Lemma keys_lookup (o : object) n k v :
  o !! n = Some (k, v) → keys o !! n = Some k.
Proof. intros H. unfold keys. by rewrite list_lookup_fmap, H. Qed.

Lemma objectValues_lookup (o : object) n k v :
  o !! n = Some (k, v) → objectValues o !! n = Some v.
Proof. intros H. unfold objectValues. by rewrite list_lookup_fmap, H. Qed.

(** On a payload with at least one key the helper does not throw, and
    returns the joined fragments and the payload's values. *)
Lemma sqlForPartialUpdate_nonempty (o : object) (m : gmap string string) :
  o ≠ [] →
  sqlForPartialUpdate o m
  = inr (Clause (join ", " (imap (fragment m) (keys o))) (objectValues o)).
Proof.
  intros Hne. unfold sqlForPartialUpdate.
  destruct (decide (length (keys o) = 0)) as [Hz|_]; [|done].
  rewrite keys_length in Hz. by destruct o.
Qed.

Lemma sqlForPartialUpdate_values (o : object) (m : gmap string string) c :
  sqlForPartialUpdate o m = inr c → values c = objectValues o.
Proof.
  unfold sqlForPartialUpdate. case_decide; [done|]. by intros [= <-].
Qed.

Lemma column_unmapped (m : gmap string string) k :
  m !! k = None → column m k = k.
Proof. intros H. unfold column. by rewrite H. Qed.

(** The helper's own test, "works". *)
Example sqlForPartialUpdate_works :
  sqlForPartialUpdate Fixture.dataToUpdate Fixture.jsToSql
  = inr (Clause (dq +:+ "num_employees" +:+ dq +:+ "=$1, "
                 +:+ dq +:+ "description" +:+ dq +:+ "=$2")
                [VNum 5; VStr "Description 3"]).
Proof. vm_compute. reflexivity. Qed.

(** C1. For a payload [o] with at least one key and any field map [m], the
    helper returns a clause that is the join with ", " of exactly [|o|]
    fragments and a value list of length [|o|]: the fragment at 0-based
    index [n] is the quoted column of the [n]-th key followed by [=$] and
    the position [n + 1], and the value at index [n] is the value of that
    same key. *)
Theorem sqlForPartialUpdate_positions (o : object) (m : gmap string string) :
  o ≠ [] →
  ∃ frags vals,
    sqlForPartialUpdate o m = inr (Clause (join ", " frags) vals)
    ∧ length frags = length o
    ∧ length vals = length o
    ∧ ∀ n k v, o !! n = Some (k, v) →
        frags !! n
        = Some (dq +:+ column m k +:+ dq +:+ "=$" +:+ pretty (n + 1))
        ∧ vals !! n = Some v.
Proof.
  intros Hne.
  exists (imap (fragment m) (keys o)), (objectValues o).
  split; [by apply sqlForPartialUpdate_nonempty|].
  split; [by rewrite length_imap, keys_length|].
  split; [apply objectValues_length|].
  intros n k v Hn. split.
  - rewrite list_lookup_imap, (keys_lookup _ _ _ _ Hn). reflexivity.
  - by apply objectValues_lookup with k.
Qed.

Lemma sqlForPartialUpdate_positions_witness :
  ∃ frags vals,
    sqlForPartialUpdate Fixture.dataToUpdate Fixture.jsToSql
    = inr (Clause (join ", " frags) vals)
    ∧ length frags = 2
    ∧ length vals = 2
    ∧ ∀ n k v, Fixture.dataToUpdate !! n = Some (k, v) →
        frags !! n
        = Some (dq +:+ column Fixture.jsToSql k +:+ dq +:+ "=$"
                +:+ pretty (n + 1))
        ∧ vals !! n = Some v.
Proof.
  apply (sqlForPartialUpdate_positions Fixture.dataToUpdate Fixture.jsToSql).
  discriminate.
Defined.

(** C3. For every field map, the empty one included, the helper throws a
    BadRequest error on the empty payload and returns no clause; and
    [Job.update] on the empty payload throws that error with the database
    and the trace of statements left as they were. *)
Theorem sqlForPartialUpdate_empty (m : gmap string string) :
  ∃ msg,
    sqlForPartialUpdate [] m = inl (BadRequestError msg)
    ∧ sqlForPartialUpdate [] ∅ = inl (BadRequestError msg)
    ∧ ∀ (DB : Type) (exec : DB → statement → DB * (string + list object))
        (id : value) (w : Eff.world),
        Job.update exec id (Job.DObject []) w = (w, inl (BadRequestError msg)).
Proof. eexists. repeat split. Qed.

(** C8. A payload key that the field map does not contain is written under
    its own name, inside the same double quotes and with the same
    placeholder as a mapped key gets. *)
Theorem sqlForPartialUpdate_unmapped_key (o : object) (m : gmap string string)
    (n : nat) (k : string) (v : value) :
  o !! n = Some (k, v) →
  m !! k = None →
  ∃ frags vals,
    sqlForPartialUpdate o m = inr (Clause (join ", " frags) vals)
    ∧ length frags = length o
    ∧ frags !! n = Some (dq +:+ k +:+ dq +:+ "=$" +:+ pretty (n + 1))
    ∧ ∀ n' k' col, keys o !! n' = Some k' → m !! k' = Some col →
        frags !! n' = Some (dq +:+ col +:+ dq +:+ "=$" +:+ pretty (n' + 1)).
Proof.
  intros Hn Hm.
  assert (o ≠ []) as Hne by (intros ->; discriminate).
  exists (imap (fragment m) (keys o)), (objectValues o).
  split; [by apply sqlForPartialUpdate_nonempty|].
  split; [by rewrite length_imap, keys_length|].
  split.
  - rewrite list_lookup_imap, (keys_lookup _ _ _ _ Hn). simpl.
    unfold fragment. by rewrite column_unmapped.
  - intros n' k' col Hk Hcol. rewrite list_lookup_imap, Hk. simpl.
    unfold fragment, column. by rewrite Hcol.
Qed.

Lemma sqlForPartialUpdate_unmapped_key_witness :
  ∃ frags vals,
    sqlForPartialUpdate Fixture.updateData Job.jsToSql
    = inr (Clause (join ", " frags) vals)
    ∧ length frags = 3
    ∧ frags !! 1 = Some (dq +:+ "salary" +:+ dq +:+ "=$" +:+ pretty (1 + 1))
    ∧ ∀ n' k' col, keys Fixture.updateData !! n' = Some k' →
        Job.jsToSql !! k' = Some col →
        frags !! n' = Some (dq +:+ col +:+ dq +:+ "=$" +:+ pretty (n' + 1)).
Proof.
  apply (sqlForPartialUpdate_unmapped_key Fixture.updateData Job.jsToSql
           1 "salary" (VNum 999999)).
  - reflexivity.
  - vm_compute. reflexivity.
Defined.

End SqlFacts.

(** ** Properties of models/job.js *)

Module JobFacts.
Import Job.

Lemma toBoolean_defaultParam (v : value) :
  toBoolean (defaultParam v VNull) = toBoolean v.
Proof. by destruct v. Qed.

Lemma defaultParam_truthy (v : value) :
  toBoolean v = true → defaultParam v VNull = v.
Proof. by destruct v. Qed.

Lemma isAbsent_falsy (v : value) : isAbsent v = true → toBoolean v = false.
Proof. by destruct v. Qed.

Lemma statements_snoc (t : list event) (q : statement) :
  statements (t ++ [Query q]) = statements t ++ [q].
Proof. unfold statements. by rewrite omap_app. Qed.

Lemma statements_log (t : list event) (rows : list object) :
  statements (t ++ [ConsoleLog rows]) = statements t.
Proof. unfold statements. rewrite omap_app. simpl. by rewrite app_nil_r. Qed.

(** The predicates and values [findAll] collects, block by block. *)
Lemma buildFilters_eq (t s e : value) :
  let nt := if toBoolean t then 1 else 0 in
  let ns := if toBoolean s then 1 else 0 in
  let ne := if toBoolean e then 1 else 0 in
  filters (buildFilters t s e)
  = (if toBoolean t then [titlePredicate 1] else [])
    ++ (if toBoolean s then [salaryPredicate (nt + 1)] else [])
    ++ (if toBoolean e then [equityPredicate (nt + ns + 1)] else [])
  ∧ values (buildFilters t s e)
  = (if toBoolean t then [VStr ("%" +:+ toString t +:+ "%")] else [])
    ++ (if toBoolean s then [s] else [])
    ++ (if toBoolean e then [VStr "0"] else [])
  ∧ idx (buildFilters t s e) = nt + ns + ne + 1.
Proof.
  unfold buildFilters.
  rewrite !toBoolean_defaultParam.
  destruct (toBoolean t) eqn:Ht, (toBoolean s) eqn:Hs, (toBoolean e) eqn:He;
    rewrite ?(defaultParam_truthy _ Ht), ?(defaultParam_truthy _ Hs);
    simpl; done.
Qed.

(** What [findAll] does with the collected predicates: one statement, with
    the WHERE group and the bound values when there is a predicate, and
    without either (and a console log of the rows) when there is none. *)
Lemma findAll_run {DB} (exec : DB → statement → DB * (string + list object))
    (t s e : value) (w : Eff.world) :
  let st := buildFilters t s e in
  let q := match filters st with
           | [] => Statement unfilteredSql None
           | _ :: _ => Statement (filteredSql (join " AND " (filters st)))
                                 (Some (values st))
           end in
  statements (Eff.trace (findAll exec t s e w).1)
  = statements (Eff.trace w) ++ [q].
Proof.
  intros st q. unfold findAll, Eff.bind, Eff.query, Eff.consoleLog, Eff.ret.
  fold st. subst q. destruct (filters st) as [|f fs]; simpl.
  - destruct (exec (Eff.database w) _) as [d [msg|rows]]; simpl.
    + apply statements_snoc.
    + by rewrite statements_log, statements_snoc.
  - destruct (exec (Eff.database w) _) as [d [msg|rows]]; simpl;
      apply statements_snoc.
Qed.



(** C4, as amended. A truthy title emits exactly [LOWER(title) LIKE $n]
    and binds the title between two percent signs; a truthy minimum salary
    emits exactly [salary >= $n] and binds the threshold as it is; a truthy
    equity flag emits exactly [equity !=  $n], with two spaces before the
    placeholder, and binds the string "0". Each [n] is one more than the
    number of predicates emitted before it. With title "2" and minimum
    salary 200000 the statement holds the group
    [(LOWER(title) LIKE $1 AND salary >= $2)] and binds ["%2%"; 200000]. *)
Theorem buildFilters_fragments {DB}
    (exec : DB → statement → DB * (string + list object))
    (t s e : value) (w : Eff.world) :
  let st := buildFilters t s e in
  let nt := if toBoolean t then 1 else 0 in
  let ns := if toBoolean s then 1 else 0 in
  filters st
  = (if toBoolean t then ["LOWER(title) LIKE $1"] else [])
    ++ (if toBoolean s then ["salary >= $" +:+ pretty (nt + 1)] else [])
    ++ (if toBoolean e then ["equity !=  $" +:+ pretty (nt + ns + 1)] else [])
  ∧ values st
  = (if toBoolean t then [VStr ("%" +:+ toString t +:+ "%")] else [])
    ++ (if toBoolean s then [s] else [])
    ++ (if toBoolean e then [VStr "0"] else [])
  ∧ ∃ q,
      statements (Eff.trace (findAll exec (VStr "2") (VNum 200000) VUndefined w).1)
      = statements (Eff.trace w) ++ [q]
      ∧ includes "WHERE (LOWER(title) LIKE $1 AND salary >= $2)" (text q) = true
      ∧ bindings q = Some [VStr "%2%"; VNum 200000].
Proof.
  intros st nt ns. subst st.
  destruct (buildFilters_eq t s e) as (Hf & Hv & _).
  split; [exact Hf|]. split; [exact Hv|].
  eexists. split; [apply findAll_run|]. split; reflexivity.
Qed.

(** C4, as the specification states it, fails twice: the predicate of the
    equity flag is not the text with single spaces, and a title that is
    present but empty emits no predicate. *)
Lemma buildFilters_flag_text_differs :
  filters (buildFilters VNull VNull (VBool true)) ≠ [specFlagPredicate 1]
  ∧ isAbsent (VStr "") = false
  ∧ filters (buildFilters (VStr "") VNull VNull) = [].
Proof. split; [discriminate|split; reflexivity]. Qed.

(** C5. [findAll] always executes exactly one statement, and its text never
    holds [WHERE ()]. When the three criteria are absent no predicate and no
    value is collected. When no predicate is collected the statement is the
    one without a WHERE keyword and carries no bound values; when there is
    one or more, they are joined with " AND " inside one parenthesized group
    after WHERE, and the collected values are bound. *)
Theorem findAll_where_group {DB}
    (exec : DB → statement → DB * (string + list object))
    (t s e : value) (w : Eff.world) :
  let st := buildFilters t s e in
  ∃ q,
    statements (Eff.trace (findAll exec t s e w).1)
    = statements (Eff.trace w) ++ [q]
    ∧ includes "WHERE ()" (text q) = false
    ∧ (if isAbsent t && isAbsent s && isAbsent e
       then filters st = [] ∧ values st = [] else True)
    ∧ match filters st with
      | [] =>
          values st = []
          ∧ q = Statement unfilteredSql None
          ∧ includes "WHERE" (text q) = false
      | _ :: _ =>
          ∃ pre post,
            text q = pre +:+ "WHERE (" +:+ join " AND " (filters st)
                         +:+ ")" +:+ post
            ∧ includes "WHERE" pre = false ∧ includes "WHERE" post = false
            ∧ includes "(" pre = false ∧ includes "(" post = false
            ∧ includes ")" pre = false ∧ includes ")" post = false
            ∧ bindings q = Some (values st)
      end.
Proof.
  intros st. eexists. split; [apply findAll_run|].
  fold st. destruct (buildFilters_eq t s e) as (Hf & Hv & _). fold st in Hf, Hv.
  split; [|split].
  - rewrite Hf.
    destruct (toBoolean t), (toBoolean s), (toBoolean e); reflexivity.
  - destruct (isAbsent t) eqn:At, (isAbsent s) eqn:As, (isAbsent e) eqn:Ae;
      simpl; try done.
    rewrite Hf, Hv.
    by rewrite (isAbsent_falsy _ At), (isAbsent_falsy _ As),
      (isAbsent_falsy _ Ae).
  - destruct (filters st) as [|f fs] eqn:Hfs.
    + split; [|split; reflexivity].
      rewrite Hv. rewrite Hf in Hfs.
      destruct (toBoolean t), (toBoolean s), (toBoolean e); done.
    + exists ("SELECT title," +:+ nl +:+
              "                salary," +:+ nl +:+
              "                equity," +:+ nl +:+
              "                company_handle AS " +:+ dq +:+ "companyHandle"
                +:+ dq +:+ nl +:+
              "        FROM jobs" +:+ nl +:+
              "        "),
             (nl +:+ "        ORDER BY title").
      repeat split; reflexivity.
Qed.

(** C6. Whatever the title and the minimum salary, [findAll] with the
    equity flag [false] collects the same predicates and values, and runs
    the same statement with the same outcome, as with the flag left out or
    [null]. *)
Theorem findAll_false_flag_is_absent {DB}
    (exec : DB → statement → DB * (string + list object))
    (t s : value) (w : Eff.world) :
  buildFilters t s (VBool false) = buildFilters t s VUndefined
  ∧ buildFilters t s (VBool false) = buildFilters t s VNull
  ∧ findAll exec t s (VBool false) w = findAll exec t s VUndefined w
  ∧ findAll exec t s (VBool false) w = findAll exec t s VNull w.
Proof. repeat split; reflexivity. Qed.

(** The statement [update] composes from the helper's clause and the id. *)
Lemma updateWith_run {DB} (exec : DB → statement → DB * (string + list object))
    (helper : object → gmap string string → exn + Sql.clause)
    (id : value) (o : object) (c : Sql.clause) (w : Eff.world) :
  toBoolean (getProp o "id") = false →
  toBoolean (getProp o "companyHandle") = false →
  helper o jsToSql = inr c →
  let q := Statement
             (updateSql (Sql.setCols c)
                        ("$" +:+ pretty (length (Sql.values c) + 1)))
             (Some (Sql.values c ++ [id])) in
  let w' := Eff.World (exec (Eff.database w) q).1 (Eff.trace w ++ [Query q]) in
  updateWith exec helper id (DObject o) w
  = match (exec (Eff.database w) q).2 with
    | inl msg => (w', inl (DriverError msg))
    | inr [] => (w', inl (NotFoundError ("No job with id of " +:+ toString id)))
    | inr (job :: _) => (w', inr job)
    end.
Proof.
  intros Hid Hch Hc q w'. subst w'.
  unfold updateWith, Eff.bind, Eff.query, Eff.throw, Eff.ret.
  rewrite Hid, Hch, Hc. simpl. fold q.
  destruct (exec (Eff.database w) q) as [d [msg|[|job rows]]]; reflexivity.
Qed.

Lemma updateWith_trace {DB}
    (exec : DB → statement → DB * (string + list object))
    (helper : object → gmap string string → exn + Sql.clause)
    (id : value) (o : object) (c : Sql.clause) (w : Eff.world) :
  toBoolean (getProp o "id") = false →
  toBoolean (getProp o "companyHandle") = false →
  helper o jsToSql = inr c →
  Eff.trace (updateWith exec helper id (DObject o) w).1
  = Eff.trace w
    ++ [Query (Statement
                 (updateSql (Sql.setCols c)
                            ("$" +:+ pretty (length (Sql.values c) + 1)))
                 (Some (Sql.values c ++ [id])))].
Proof.
  intros Hid Hch Hc. rewrite (updateWith_run _ _ _ _ _ _ Hid Hch Hc).
  destruct (exec _ _).2 as [msg|[|job rows]]; reflexivity.
Qed.

(** A payload without the key reads [undefined] there, so a payload that
    names neither [id] nor [companyHandle] passes the second guard. *)
Lemma getProp_missing (o : object) (k : string) :
  k ∉ keys o → getProp o k = VUndefined.
Proof.
  induction o as [|[k' v] o' IH]; simpl; intros Hk; [done|].
  destruct (String.eqb_spec k' k) as [->|Hne].
  - exfalso. apply Hk. unfold keys. simpl. apply list_elem_of_here.
  - apply IH. intros Hin. apply Hk. unfold keys. simpl.
    by apply list_elem_of_further.
Qed.



(** C9. When the helper has returned its clause and the statement composed
    from it returns no row for the id, [update] throws NotFound: the
    statement is in the trace and the database is the one the driver left,
    so the error comes after the execution; it is not a BadRequest, and the
    helper itself did not throw. *)
Theorem update_not_found {DB}
    (exec : DB → statement → DB * (string + list object))
    (id : value) (o : object) (c : Sql.clause) (w : Eff.world) :
  toBoolean (getProp o "id") = false →
  toBoolean (getProp o "companyHandle") = false →
  Sql.sqlForPartialUpdate o jsToSql = inr c →
  let q := Statement
             (updateSql (Sql.setCols c)
                        ("$" +:+ pretty (length (Sql.values c) + 1)))
             (Some (Sql.values c ++ [id])) in
  (exec (Eff.database w) q).2 = inr [] →
  ∃ e,
    update exec id (DObject o) w
    = (Eff.World (exec (Eff.database w) q).1 (Eff.trace w ++ [Query q]),
       inl e)
    ∧ e = NotFoundError ("No job with id of " +:+ toString id)
    ∧ isNotFound e = true
    ∧ isBadRequest e = false.
Proof.
  intros Hid Hch Hc q Hrows. eexists. split; [|repeat split].
  unfold update. rewrite (updateWith_run _ _ _ _ _ _ Hid Hch Hc).
  fold q. by rewrite Hrows.
Qed.

Lemma update_not_found_witness :
  ∃ e,
    update Fixture.noRows (VNum 69) (DObject Fixture.updateData) Fixture.start
    = (Eff.World tt
         [Query (Statement
                   (updateSql
                      (dq +:+ "title" +:+ dq +:+ "=$1, " +:+
                       dq +:+ "salary" +:+ dq +:+ "=$2, " +:+
                       dq +:+ "equity" +:+ dq +:+ "=$3")
                      "$4")
                   (Some [VStr "New"; VNum 999999; VStr "0.05"; VNum 69]))],
       inl e)
    ∧ e = NotFoundError "No job with id of 69"
    ∧ isNotFound e = true
    ∧ isBadRequest e = false.
Proof.
  apply (update_not_found Fixture.noRows (VNum 69) Fixture.updateData
           (Sql.Clause (dq +:+ "title" +:+ dq +:+ "=$1, " +:+
                        dq +:+ "salary" +:+ dq +:+ "=$2, " +:+
                        dq +:+ "equity" +:+ dq +:+ "=$3")
                       [VStr "New"; VNum 999999; VStr "0.05"])
           Fixture.start).
  - reflexivity.
  - reflexivity.
  - vm_compute. reflexivity.
  - reflexivity.
Defined.

(** The model's update test data against the model's own field map: none of
    title, salary and equity is mapped, so each column is the key. *)
Example update_columns_are_keys :
  Sql.sqlForPartialUpdate Fixture.updateData jsToSql
  = inr (Sql.Clause (dq +:+ "title" +:+ dq +:+ "=$1, " +:+
                     dq +:+ "salary" +:+ dq +:+ "=$2, " +:+
                     dq +:+ "equity" +:+ dq +:+ "=$3")
                    [VStr "New"; VNum 999999; VStr "0.05"]).
Proof. vm_compute. reflexivity. Qed.

(** C10. The guards of [update] test truthiness. Data that is [null] or
    missing throws BadRequest "Data is required". A payload throws the
    BadRequest of the second guard exactly when the value it has under [id]
    or under [companyHandle] is truthy; in both cases nothing is executed.
    The payloads [{id: 0}] and [{companyHandle: ""}] pass both guards and
    reach the helper, whose clause is then executed. *)
Theorem update_guards_truthiness {DB}
    (exec : DB → statement → DB * (string + list object))
    (id : value) (o : object) (w : Eff.world) :
  update exec id DNull w = (w, inl (BadRequestError "Data is required"))
  ∧ update exec id DUndefined w
    = (w, inl (BadRequestError "Data is required"))
  ∧ (update exec id (DObject o) w
     = (w, inl (BadRequestError "Job id and companyHandle can not be changed"))
     ↔ toBoolean (getProp o "id") || toBoolean (getProp o "companyHandle")
       = true)
  ∧ Eff.trace (update exec id (DObject [("id", VNum 0)]) w).1
    = Eff.trace w
      ++ [Query (Statement (updateSql (dq +:+ "id" +:+ dq +:+ "=$1") "$2")
                           (Some [VNum 0; id]))]
  ∧ Eff.trace (update exec id (DObject [("companyHandle", VStr "")]) w).1
    = Eff.trace w
      ++ [Query (Statement
                   (updateSql (dq +:+ "company_handle" +:+ dq +:+ "=$1") "$2")
                   (Some [VStr ""; id]))].
Proof.
  split; [reflexivity|]. split; [reflexivity|]. split; [|split].
  - split.
    + intros Hrun.
      destruct (toBoolean (getProp o "id")) eqn:Hid; [done|].
      destruct (toBoolean (getProp o "companyHandle")) eqn:Hch; [done|].
      exfalso. destruct o as [|kv o'].
      * discriminate Hrun.
      * assert (kv :: o' ≠ []) as Hne by discriminate.
        pose proof (SqlFacts.sqlForPartialUpdate_nonempty _ jsToSql Hne) as Hc.
        pose proof (updateWith_trace exec _ id _ _ w Hid Hch Hc) as Ht.
        fold (update exec id (DObject (kv :: o')) w) in Ht.
        rewrite Hrun in Ht. simpl in Ht.
        apply (f_equal length) in Ht. rewrite length_app in Ht.
        simpl in Ht. lia.
    + intros Hg. unfold update, updateWith. by rewrite Hg.
  - assert (Sql.sqlForPartialUpdate [("id", VNum 0)] jsToSql
            = inr (Sql.Clause (dq +:+ "id" +:+ dq +:+ "=$1") [VNum 0])) as Hc
      by (vm_compute; reflexivity).
    exact (updateWith_trace exec _ id [("id", VNum 0)] _ w
             eq_refl eq_refl Hc).
  - assert (Sql.sqlForPartialUpdate [("companyHandle", VStr "")] jsToSql
            = inr (Sql.Clause (dq +:+ "company_handle" +:+ dq +:+ "=$1")
                              [VStr ""])) as Hc
      by (vm_compute; reflexivity).
    exact (updateWith_trace exec _ id [("companyHandle", VStr "")] _ w
             eq_refl eq_refl Hc).
Qed.

End JobFacts.

(** ** Further properties of models/job.js: create, get, remove, and the
    outcomes of findAll and update *)

Module JobMore.
Import Job.

(** *** Property reads and assignments on the job [get] returns *)

Lemma getField_setField (o : list (string * field)) (k : string) (x : field) :
  getField (setField o k x) k = x.
Proof.
  induction o as [|[k' x'] o' IH]; simpl.
  - by rewrite String.eqb_refl.
  - destruct (String.eqb k' k) eqn:Hk; simpl; by rewrite Hk.
Qed.

Lemma getField_setField_other (o : list (string * field)) (k k' : string)
    (x : field) :
  k ≠ k' → getField (setField o k x) k' = getField o k'.
Proof.
  intros Hne. induction o as [|[k0 x0] o' IH]; simpl.
  - destruct (String.eqb_spec k k'); done.
  - destruct (String.eqb_spec k0 k) as [->|Hk]; simpl.
    + destruct (String.eqb_spec k k'); done.
    + destruct (String.eqb_spec k0 k'); done.
Qed.

Lemma getField_ofRow (o : object) (k : string) :
  getField (ofRow o) k = Prim (getProp o k).
Proof.
  induction o as [|[k' v] o' IH]; simpl; [done|].
  by destruct (String.eqb k' k).
Qed.

Lemma ofRow_keys (o : object) : (ofRow o).*1 = keys o.
Proof.
  unfold ofRow, keys. induction o as [|[k' v] o' IH]; [done|].
  simpl in *. by f_equal.
Qed.

Lemma setField_keys_present (o : list (string * field)) (k : string)
    (x : field) :
  k ∈ o.*1 → (setField o k x).*1 = o.*1.
Proof.
  induction o as [|[k' x'] o' IH]; simpl; intros Hin.
  - by apply elem_of_nil in Hin.
  - destruct (String.eqb_spec k' k) as [->|Hk]; simpl; [done|].
    f_equal. apply IH. apply elem_of_cons in Hin as [->|Hin]; done.
Qed.

Lemma setField_keys_absent (o : list (string * field)) (k : string)
    (x : field) :
  k ∉ o.*1 → (setField o k x).*1 = o.*1 ++ [k].
Proof.
  induction o as [|[k' x'] o' IH]; simpl; intros Hin; [done|].
  destruct (String.eqb_spec k' k) as [->|Hk]; simpl.
  - exfalso. apply Hin. apply list_elem_of_here.
  - f_equal. apply IH. intros Hk'. apply Hin. by apply list_elem_of_further.
Qed.

(** *** The runs of create, get and remove, reply by reply *)

Lemma create_run {DB} (exec : DB → statement → DB * (string + list object))
    (data : object) (w : Eff.world) :
  let check := Statement duplicateCheckSql
                 (Some [getProp data "companyHandle"; getProp data "title"]) in
  let insert := Statement insertSql
                  (Some [getProp data "title"; getProp data "salary";
                         getProp data "equity";
                         getProp data "companyHandle"]) in
  let r1 := exec (Eff.database w) check in
  let r2 := exec r1.1 insert in
  create exec data w
  = match r1.2 with
    | inl msg =>
        (Eff.World r1.1 (Eff.trace w ++ [Query check]), inl (DriverError msg))
    | inr (_ :: _) =>
        (Eff.World r1.1 (Eff.trace w ++ [Query check]),
         inl (BadRequestError
                ("Duplicate job: " +:+ toString (getProp data "companyHandle")
                 +:+ ", " +:+ toString (getProp data "title"))))
    | inr [] =>
        (Eff.World r2.1 (Eff.trace w ++ [Query check; Query insert]),
         match r2.2 with
         | inl msg => inl (DriverError msg)
         | inr rows => inr (head rows)
         end)
    end.
Proof.
  intros check insert r1 r2. subst r2 r1.
  unfold create, Eff.bind, Eff.query, Eff.throw, Eff.ret. fold check insert.
  destruct (exec (Eff.database w) check) as [d1 [msg|[|r rs]]]; simpl;
    try reflexivity.
  rewrite <- app_assoc. simpl.
  destruct (exec d1 insert) as [d2 [msg|rows]]; reflexivity.
Qed.

Lemma get_run {DB} (exec : DB → statement → DB * (string + list object))
    (id : value) (w : Eff.world) :
  let jobq := Statement getJobSql (Some [id]) in
  let r1 := exec (Eff.database w) jobq in
  get exec id w
  = match r1.2 with
    | inl msg =>
        (Eff.World r1.1 (Eff.trace w ++ [Query jobq]), inl (DriverError msg))
    | inr [] =>
        (Eff.World r1.1 (Eff.trace w ++ [Query jobq]),
         inl (NotFoundError ("No job with id of " +:+ toString id)))
    | inr (job :: _) =>
        let companyq :=
          Statement getCompanySql (Some [getProp job "company"]) in
        let r2 := exec r1.1 companyq in
        (Eff.World r2.1 (Eff.trace w ++ [Query jobq; Query companyq]),
         match r2.2 with
         | inl msg => inl (DriverError msg)
         | inr rows => inr (setField (ofRow job) "company" (firstRow rows))
         end)
    end.
Proof.
  intros jobq r1. subst r1.
  unfold get, Eff.bind, Eff.query, Eff.throw, Eff.ret. fold jobq.
  destruct (exec (Eff.database w) jobq) as [d1 [msg|[|job rs]]]; simpl;
    try reflexivity.
  rewrite <- app_assoc. simpl.
  destruct (exec d1 _) as [d2 [msg|rows]]; reflexivity.
Qed.

Lemma remove_run {DB} (exec : DB → statement → DB * (string + list object))
    (id : value) (w : Eff.world) :
  let q := Statement removeSql (Some [id]) in
  let r := exec (Eff.database w) q in
  remove exec id w
  = (Eff.World r.1 (Eff.trace w ++ [Query q]),
     match r.2 with
     | inl msg => inl (DriverError msg)
     | inr [] => inl (NotFoundError ("No job: " +:+ toString id))
     | inr (_ :: _) => inr tt
     end).
Proof.
  intros q r. subst r.
  unfold remove, Eff.bind, Eff.query, Eff.throw, Eff.ret. fold q.
  destruct (exec (Eff.database w) q) as [d [msg|[|row rs]]]; reflexivity.
Qed.

(** *** create *)

(** X1. When the duplicate check returns a row, [create] throws BadRequest
    naming the company handle and the title; the check is the only
    statement executed, so nothing is inserted, and the database is the one
    the check left. *)
Theorem create_duplicate_rejected {DB}
    (exec : DB → statement → DB * (string + list object))
    (data : object) (w : Eff.world) (row : object) (rest : list object) :
  let check := Statement duplicateCheckSql
                 (Some [getProp data "companyHandle"; getProp data "title"]) in
  (exec (Eff.database w) check).2 = inr (row :: rest) →
  create exec data w
  = (Eff.World (exec (Eff.database w) check).1
               (Eff.trace w ++ [Query check]),
     inl (BadRequestError
            ("Duplicate job: " +:+ toString (getProp data "companyHandle")
             +:+ ", " +:+ toString (getProp data "title")))).
Proof.
  intros check Hdup. pose proof (create_run exec data w) as Hrun.
  cbv zeta in Hrun. fold check in Hrun. rewrite Hrun, Hdup. reflexivity.
Qed.

Lemma create_duplicate_rejected_witness :
  create Fixture.scripted Fixture.newJob
         (Fixture.scriptedStart [inr [[("title", VStr "New Job")]]])
  = (Eff.World []
       [Query (Statement duplicateCheckSql
                         (Some [VStr "c1"; VStr "New Job"]))],
     inl (BadRequestError "Duplicate job: c1, New Job")).
Proof.
  apply (create_duplicate_rejected Fixture.scripted Fixture.newJob
           (Fixture.scriptedStart [inr [[("title", VStr "New Job")]]])
           [("title", VStr "New Job")] []).
  reflexivity.
Defined.

(** X2. [create] always runs the duplicate check first, bound to the
    company handle and the title. It goes on to the INSERT exactly when the
    check succeeds with no row, and it throws BadRequest exactly when the
    check returns a row. *)
Theorem create_insert_guarded {DB}
    (exec : DB → statement → DB * (string + list object))
    (data : object) (w : Eff.world) :
  let check := Statement duplicateCheckSql
                 (Some [getProp data "companyHandle"; getProp data "title"]) in
  let insert := Statement insertSql
                  (Some [getProp data "title"; getProp data "salary";
                         getProp data "equity";
                         getProp data "companyHandle"]) in
  let reply := (exec (Eff.database w) check).2 in
  ∃ new,
    Eff.trace (create exec data w).1 = Eff.trace w ++ Query check :: new
    ∧ (new = [Query insert] ↔ reply = inr [])
    ∧ (new = [] ↔ reply ≠ inr [])
    ∧ ((∃ m, (create exec data w).2 = inl (BadRequestError m))
       ↔ ∃ row rest, reply = inr (row :: rest)).
Proof.
  intros check insert reply. subst reply.
  pose proof (create_run exec data w) as Hrun.
  cbv zeta in Hrun. fold check insert in Hrun. rewrite Hrun. clear Hrun.
  destruct (exec (Eff.database w) check) as [d1 [msg|[|row rest]]]; simpl.
  - exists []. repeat split; try done.
    + intros [m Hm]. done.
    + intros (row & rest & H). done.
  - exists [Query insert]. repeat split; try done.
    + intros [m Hm]. by destruct (exec d1 insert).2.
    + intros (row & rest & H). done.
  - exists []. repeat split; try done; eauto.
Qed.

(** X3. When the duplicate check finds no row and the INSERT returns its
    rows, [create] returns the first of them ([undefined] when there is
    none); the INSERT binds title, salary, equity and company handle in
    that order and runs on the database the check left. *)
Theorem create_returns_inserted_row {DB}
    (exec : DB → statement → DB * (string + list object))
    (data : object) (w : Eff.world) (rows : list object) :
  let check := Statement duplicateCheckSql
                 (Some [getProp data "companyHandle"; getProp data "title"]) in
  let insert := Statement insertSql
                  (Some [getProp data "title"; getProp data "salary";
                         getProp data "equity";
                         getProp data "companyHandle"]) in
  let r1 := exec (Eff.database w) check in
  r1.2 = inr [] →
  (exec r1.1 insert).2 = inr rows →
  create exec data w
  = (Eff.World (exec r1.1 insert).1
               (Eff.trace w ++ [Query check; Query insert]),
     inr (head rows)).
Proof.
  intros check insert r1 Hcheck Hinsert. subst r1.
  pose proof (create_run exec data w) as Hrun.
  cbv zeta in Hrun. fold check insert in Hrun.
  rewrite Hrun, Hcheck, Hinsert. reflexivity.
Qed.

Lemma create_returns_inserted_row_witness :
  create Fixture.scripted Fixture.newJob
         (Fixture.scriptedStart [inr []; inr [Fixture.insertedRow]])
  = (Eff.World []
       [Query (Statement duplicateCheckSql
                         (Some [VStr "c1"; VStr "New Job"]));
        Query (Statement insertSql
                         (Some [VStr "New Job"; VNum 60000; VStr "0.1";
                                VStr "c1"]))],
     inr (Some Fixture.insertedRow)).
Proof.
  apply (create_returns_inserted_row Fixture.scripted Fixture.newJob
           (Fixture.scriptedStart [inr []; inr [Fixture.insertedRow]])
           [Fixture.insertedRow]).
  - reflexivity.
  - reflexivity.
Defined.

(** *** get *)

(** X4. [get] always runs the job query bound to the id. It throws
    NotFound for that id exactly when the query succeeds with no row, and
    then runs nothing else; the company query is run only when a job row
    came back, bound to that row's company. *)
Theorem get_not_found_iff {DB}
    (exec : DB → statement → DB * (string + list object))
    (id : value) (w : Eff.world) :
  let jobq := Statement getJobSql (Some [id]) in
  let reply := (exec (Eff.database w) jobq).2 in
  ∃ new,
    Eff.trace (get exec id w).1 = Eff.trace w ++ Query jobq :: new
    ∧ ((get exec id w).2
       = inl (NotFoundError ("No job with id of " +:+ toString id))
       ↔ reply = inr [])
    ∧ new = match reply with
            | inr (job :: _) =>
                [Query (Statement getCompanySql
                                  (Some [getProp job "company"]))]
            | _ => []
            end.
Proof.
  intros jobq reply. subst reply.
  pose proof (get_run exec id w) as Hrun.
  cbv zeta in Hrun. fold jobq in Hrun. rewrite Hrun. clear Hrun.
  destruct (exec (Eff.database w) jobq) as [d1 [msg|[|job rest]]]; simpl.
  - exists []. repeat split; done.
  - exists []. repeat split; done.
  - eexists. split; [reflexivity|]. split; [|reflexivity].
    split; [|done]. by destruct (exec d1 _).2.
Qed.

(** X5. When the job query returns a row and the company query returns its
    rows, [get] returns the job row with its company property replaced by
    the first company row ([undefined] when there is none): every other
    property reads as in the job row, and the keys are those of the row,
    with [company] added last when the row did not have it. *)
Theorem get_attaches_company {DB}
    (exec : DB → statement → DB * (string + list object))
    (id : value) (w : Eff.world) (job : object) (rest companies : list object) :
  let r1 := exec (Eff.database w) (Statement getJobSql (Some [id])) in
  r1.2 = inr (job :: rest) →
  (exec r1.1 (Statement getCompanySql (Some [getProp job "company"]))).2
  = inr companies →
  ∃ found,
    (get exec id w).2 = inr found
    ∧ getField found "company" = firstRow companies
    ∧ (∀ k, k ≠ "company" → getField found k = Prim (getProp job k))
    ∧ found.*1 = if bool_decide ("company" ∈ keys job)
                 then keys job else keys job ++ ["company"].
Proof.
  intros r1 Hjob Hcompany. subst r1.
  pose proof (get_run exec id w) as Hrun. cbv zeta in Hrun.
  rewrite Hrun, Hjob. simpl. rewrite Hcompany. clear Hrun.
  eexists. split; [reflexivity|]. split; [apply getField_setField|]. split.
  - intros k Hk. rewrite getField_setField_other by done.
    apply getField_ofRow.
  - case_bool_decide as Hin.
    + rewrite setField_keys_present by (by rewrite ofRow_keys).
      apply ofRow_keys.
    + rewrite setField_keys_absent by (by rewrite ofRow_keys).
      by rewrite ofRow_keys.
Qed.

Lemma get_attaches_company_witness :
  ∃ found,
    (get Fixture.scripted (VNum 1)
         (Fixture.scriptedStart
            [inr [Fixture.jobRow]; inr [Fixture.companyRow]])).2
    = inr found
    ∧ getField found "company" = firstRow [Fixture.companyRow]
    ∧ (∀ k, k ≠ "company" →
         getField found k = Prim (getProp Fixture.jobRow k))
    ∧ found.*1 = if bool_decide ("company" ∈ keys Fixture.jobRow)
                 then keys Fixture.jobRow
                 else keys Fixture.jobRow ++ ["company"].
Proof.
  apply (get_attaches_company Fixture.scripted (VNum 1)
           (Fixture.scriptedStart
              [inr [Fixture.jobRow]; inr [Fixture.companyRow]])
           Fixture.jobRow [] [Fixture.companyRow]).
  - reflexivity.
  - reflexivity.
Defined.

(** *** remove *)

(** X6. [remove] executes exactly one statement, the DELETE bound to the
    id, and leaves the database the driver returned. It throws NotFound for
    that id exactly when the DELETE succeeds with no row, and returns
    normally exactly when a row came back. *)
Theorem remove_outcome {DB}
    (exec : DB → statement → DB * (string + list object))
    (id : value) (w : Eff.world) :
  let q := Statement removeSql (Some [id]) in
  let reply := (exec (Eff.database w) q).2 in
  Eff.trace (remove exec id w).1 = Eff.trace w ++ [Query q]
  ∧ Eff.database (remove exec id w).1 = (exec (Eff.database w) q).1
  ∧ ((remove exec id w).2 = inl (NotFoundError ("No job: " +:+ toString id))
     ↔ reply = inr [])
  ∧ ((remove exec id w).2 = inr tt ↔ ∃ row rest, reply = inr (row :: rest)).
Proof.
  intros q reply. subst reply.
  pose proof (remove_run exec id w) as Hrun.
  cbv zeta in Hrun. fold q in Hrun. rewrite Hrun. clear Hrun. simpl.
  split; [done|]. split; [done|].
  destruct (exec (Eff.database w) q).2 as [msg|[|row rest]]; split; split;
    try done; eauto.
  - intros (r & rs & H). done.
  - intros (r & rs & H). done.
Qed.

(** *** findAll *)

(** [findAll] is a function of the collected predicates and values. *)
Lemma findAll_by_filters {DB}
    (exec : DB → statement → DB * (string + list object))
    (t s e t' s' e' : value) (w : Eff.world) :
  buildFilters t s e = buildFilters t' s' e' →
  findAll exec t s e w = findAll exec t' s' e' w.
Proof. intros H. unfold findAll. by rewrite H. Qed.

Lemma buildFilters_falsy_title (t s e : value) :
  toBoolean t = false → buildFilters t s e = buildFilters VNull s e.
Proof.
  intros Ht. unfold buildFilters.
  by rewrite (JobFacts.toBoolean_defaultParam t), Ht.
Qed.

Lemma buildFilters_falsy_salary (t s e : value) :
  toBoolean s = false → buildFilters t s e = buildFilters t VNull e.
Proof.
  intros Hs. unfold buildFilters.
  by rewrite (JobFacts.toBoolean_defaultParam s), Hs.
Qed.

Lemma buildFilters_falsy_equity (t s e : value) :
  toBoolean e = false → buildFilters t s e = buildFilters t s VNull.
Proof.
  intros He. unfold buildFilters.
  by rewrite (JobFacts.toBoolean_defaultParam e), He.
Qed.

(** X7. [findAll] throws nothing of its own: its result is the driver's
    reply to its one statement, the rows as they are or the driver's
    failure, and the database is the one the driver left. The rows are
    logged to the console only on the branch without predicates, after a
    successful query. *)
Theorem findAll_returns_driver_rows {DB}
    (exec : DB → statement → DB * (string + list object))
    (t s e : value) (w : Eff.world) :
  let st := buildFilters t s e in
  let q := match filters st with
           | [] => Statement unfilteredSql None
           | _ :: _ => Statement (filteredSql (join " AND " (filters st)))
                                 (Some (values st))
           end in
  let r := exec (Eff.database w) q in
  (findAll exec t s e w).2
  = match r.2 with
    | inl msg => inl (DriverError msg)
    | inr rows => inr rows
    end
  ∧ Eff.database (findAll exec t s e w).1 = r.1
  ∧ Eff.trace (findAll exec t s e w).1
    = Eff.trace w ++ Query q
        :: match r.2, filters st with
           | inr rows, [] => [ConsoleLog rows]
           | _, _ => []
           end.
Proof.
  intros st q r. subst r q.
  unfold findAll, Eff.bind, Eff.query, Eff.consoleLog, Eff.ret. fold st.
  destruct (filters st) as [|f fs]; simpl.
  - destruct (exec (Eff.database w) _) as [d [msg|rows]]; simpl;
      rewrite <- ?app_assoc; done.
  - destruct (exec (Eff.database w) _) as [d [msg|rows]]; simpl; done.
Qed.

(** X8. The text of the statement [findAll] executes depends on the three
    criteria only through their truthiness: two calls whose criteria are
    truthy in the same positions run the same SQL text, whatever the title
    and the threshold are. The values reach the driver as bindings only. *)
Theorem findAll_text_ignores_values {DB}
    (exec : DB → statement → DB * (string + list object))
    (t s e t' s' e' : value) (w w' : Eff.world) :
  toBoolean t = toBoolean t' →
  toBoolean s = toBoolean s' →
  toBoolean e = toBoolean e' →
  filters (buildFilters t s e) = filters (buildFilters t' s' e')
  ∧ ∃ q q',
      statements (Eff.trace (findAll exec t s e w).1)
      = statements (Eff.trace w) ++ [q]
      ∧ statements (Eff.trace (findAll exec t' s' e' w').1)
        = statements (Eff.trace w') ++ [q']
      ∧ text q = text q'.
Proof.
  intros Ht Hs He.
  assert (filters (buildFilters t s e) = filters (buildFilters t' s' e'))
    as Hf.
  { destruct (JobFacts.buildFilters_eq t s e) as (-> & _).
    destruct (JobFacts.buildFilters_eq t' s' e') as (-> & _).
    by rewrite Ht, Hs, He. }
  split; [exact Hf|].
  eexists _, _. split; [apply JobFacts.findAll_run|].
  split; [apply JobFacts.findAll_run|].
  rewrite Hf. by destruct (filters (buildFilters t' s' e')).
Qed.

Lemma findAll_text_ignores_values_witness :
  filters (buildFilters (VStr "2") (VNum 200000) VUndefined)
  = filters (buildFilters (VStr "j") (VNum 250000) (VBool false))
  ∧ ∃ q q',
      statements (Eff.trace (findAll Fixture.noRows (VStr "2") (VNum 200000)
                               VUndefined Fixture.start).1)
      = statements (Eff.trace Fixture.start) ++ [q]
      ∧ statements (Eff.trace (findAll Fixture.noRows (VStr "j")
                                 (VNum 250000) (VBool false)
                                 Fixture.start).1)
        = statements (Eff.trace Fixture.start) ++ [q']
      ∧ text q = text q'.
Proof.
  apply (findAll_text_ignores_values Fixture.noRows
           (VStr "2") (VNum 200000) VUndefined
           (VStr "j") (VNum 250000) (VBool false)
           Fixture.start Fixture.start).
  - reflexivity.
  - reflexivity.
  - reflexivity.
Defined.

(** X9. The statement [findAll] executes has exactly as many dollar
    placeholders in its text as it binds values, and that number is the
    number of truthy criteria; without predicates there is neither a
    placeholder nor a binding. *)
Theorem findAll_placeholders_match_bindings {DB}
    (exec : DB → statement → DB * (string + list object))
    (t s e : value) (w : Eff.world) :
  ∃ q,
    statements (Eff.trace (findAll exec t s e w).1)
    = statements (Eff.trace w) ++ [q]
    ∧ placeholders (text q) = length (default [] (bindings q))
    ∧ placeholders (text q) = length (List.filter toBoolean [t; s; e]).
Proof.
  eexists. split; [apply JobFacts.findAll_run|].
  destruct (JobFacts.buildFilters_eq t s e) as (Hf & Hv & _).
  rewrite Hf, Hv. simpl.
  destruct (toBoolean t), (toBoolean s), (toBoolean e); split; reflexivity.
Qed.

(** X10. In each position all falsy criteria are interchangeable: a
    missing argument, [null], [false], [0] and the empty string give the
    same run of [findAll], statement, bindings and outcome alike. *)
Theorem findAll_falsy_interchangeable {DB}
    (exec : DB → statement → DB * (string + list object))
    (t s e t' s' e' : value) (w : Eff.world) :
  t = t' ∨ toBoolean t = false ∧ toBoolean t' = false →
  s = s' ∨ toBoolean s = false ∧ toBoolean s' = false →
  e = e' ∨ toBoolean e = false ∧ toBoolean e' = false →
  findAll exec t s e w = findAll exec t' s' e' w.
Proof.
  intros Ht Hs He. apply findAll_by_filters.
  transitivity (buildFilters t' s e).
  { destruct Ht as [->|[H H']]; [done|].
    by rewrite (buildFilters_falsy_title t), (buildFilters_falsy_title t'). }
  transitivity (buildFilters t' s' e).
  { destruct Hs as [->|[H H']]; [done|].
    by rewrite (buildFilters_falsy_salary _ s), (buildFilters_falsy_salary _ s'). }
  destruct He as [->|[H H']]; [done|].
  by rewrite (buildFilters_falsy_equity _ _ e), (buildFilters_falsy_equity _ _ e').
Qed.

Lemma findAll_falsy_interchangeable_witness :
  findAll Fixture.noRows (VStr "") (VNum 200000) (VBool false) Fixture.start
  = findAll Fixture.noRows VNull (VNum 200000) VUndefined Fixture.start.
Proof.
  apply (findAll_falsy_interchangeable Fixture.noRows
           (VStr "") (VNum 200000) (VBool false)
           VNull (VNum 200000) VUndefined Fixture.start).
  - right. split; reflexivity.
  - left. reflexivity.
  - right. split; reflexivity.
Defined.

(** *** The statements of create, get and remove *)

(** X11. Whatever the arguments and the driver's replies, [create], [get]
    and [remove] only add to the trace, and every statement they execute
    binds exactly as many values as its text has dollar placeholders. *)
Theorem fixed_statements_well_bound {DB}
    (exec : DB → statement → DB * (string + list object))
    (data : object) (id : value) (w : Eff.world) :
  let wellBound := λ ev,
    match ev with
    | Query q => placeholders (text q) = length (default [] (bindings q))
    | ConsoleLog _ => False
    end in
  (∃ new, Eff.trace (create exec data w).1 = Eff.trace w ++ new
          ∧ Forall wellBound new)
  ∧ (∃ new, Eff.trace (get exec id w).1 = Eff.trace w ++ new
            ∧ Forall wellBound new)
  ∧ (∃ new, Eff.trace (remove exec id w).1 = Eff.trace w ++ new
            ∧ Forall wellBound new).
Proof.
  intros wellBound. split; [|split].
  - pose proof (create_run exec data w) as Hrun. cbv zeta in Hrun.
    rewrite Hrun. clear Hrun.
    destruct (exec (Eff.database w) _) as [d1 [msg|[|row rest]]]; simpl;
      (eexists; split; [reflexivity|]); repeat constructor.
  - pose proof (get_run exec id w) as Hrun. cbv zeta in Hrun.
    rewrite Hrun. clear Hrun.
    destruct (exec (Eff.database w) _) as [d1 [msg|[|row rest]]]; simpl;
      (eexists; split; [reflexivity|]); repeat constructor.
  - pose proof (remove_run exec id w) as Hrun. cbv zeta in Hrun.
    rewrite Hrun. clear Hrun. simpl.
    eexists; split; [reflexivity|]. repeat constructor.
Qed.

(** *** update *)

(** X12. Whatever helper builds the clause, when [update] throws
    BadRequest nothing has been executed: the database and the trace are
    as they were. *)
Theorem update_bad_request_executes_nothing {DB}
    (exec : DB → statement → DB * (string + list object))
    (helper : object → gmap string string → exn + Sql.clause)
    (id : value) (d : data) (w : Eff.world) (m : string) :
  (updateWith exec helper id d w).2 = inl (BadRequestError m) →
  (updateWith exec helper id d w).1 = w.
Proof.
  destruct d as [| |o]; [done..|].
  unfold updateWith.
  destruct (toBoolean (getProp o "id") || toBoolean (getProp o "companyHandle"));
    [done|].
  destruct (helper o jsToSql) as [e|c]; [done|].
  unfold Eff.bind, Eff.query, Eff.throw, Eff.ret.
  destruct (exec (Eff.database w) _) as [d1 [msg|[|row rest]]]; simpl; done.
Qed.

Lemma update_bad_request_executes_nothing_witness :
  (updateWith Fixture.noRows Sql.sqlForPartialUpdate (VNum 1)
              (DObject [("id", VNum 2)]) Fixture.start).1
  = Fixture.start.
Proof.
  apply (update_bad_request_executes_nothing Fixture.noRows
           Sql.sqlForPartialUpdate (VNum 1) (DObject [("id", VNum 2)])
           Fixture.start "Job id and companyHandle can not be changed").
  reflexivity.
Defined.

(** X13. When the payload passes the guards, the helper returns its clause
    and the statement returns rows, [update] returns the first row, with
    that one statement in the trace and the database the driver left. *)
Theorem update_returns_first_row {DB}
    (exec : DB → statement → DB * (string + list object))
    (helper : object → gmap string string → exn + Sql.clause)
    (id : value) (o : object) (c : Sql.clause) (w : Eff.world)
    (job : object) (rest : list object) :
  toBoolean (getProp o "id") = false →
  toBoolean (getProp o "companyHandle") = false →
  helper o jsToSql = inr c →
  let q := Statement
             (updateSql (Sql.setCols c)
                        ("$" +:+ pretty (length (Sql.values c) + 1)))
             (Some (Sql.values c ++ [id])) in
  (exec (Eff.database w) q).2 = inr (job :: rest) →
  updateWith exec helper id (DObject o) w
  = (Eff.World (exec (Eff.database w) q).1 (Eff.trace w ++ [Query q]),
     inr job).
Proof.
  intros Hid Hch Hc q Hrows.
  rewrite (JobFacts.updateWith_run _ _ _ _ _ _ Hid Hch Hc).
  fold q. by rewrite Hrows.
Qed.

Lemma update_returns_first_row_witness :
  updateWith Fixture.scripted Sql.sqlForPartialUpdate (VNum 1)
             (DObject Fixture.updateData)
             (Fixture.scriptedStart [inr [Fixture.insertedRow]])
  = (Eff.World []
       [Query (Statement
                 (updateSql
                    (dq +:+ "title" +:+ dq +:+ "=$1, " +:+
                     dq +:+ "salary" +:+ dq +:+ "=$2, " +:+
                     dq +:+ "equity" +:+ dq +:+ "=$3")
                    "$4")
                 (Some [VStr "New"; VNum 999999; VStr "0.05"; VNum 1]))],
     inr Fixture.insertedRow).
Proof.
  apply (update_returns_first_row Fixture.scripted Sql.sqlForPartialUpdate
           (VNum 1) Fixture.updateData
           (Sql.Clause (dq +:+ "title" +:+ dq +:+ "=$1, " +:+
                        dq +:+ "salary" +:+ dq +:+ "=$2, " +:+
                        dq +:+ "equity" +:+ dq +:+ "=$3")
                       [VStr "New"; VNum 999999; VStr "0.05"])
           (Fixture.scriptedStart [inr [Fixture.insertedRow]])
           Fixture.insertedRow []).
  - reflexivity.
  - reflexivity.
  - vm_compute. reflexivity.
  - reflexivity.
Defined.

(** X14. With a helper that throws no NotFound of its own, when [update]
    throws NotFound the data was an object that passed the guards, the
    helper returned a clause, exactly the statement composed from it was
    executed, it returned no row, and the message names the id. *)
Theorem update_not_found_after_query {DB}
    (exec : DB → statement → DB * (string + list object))
    (helper : object → gmap string string → exn + Sql.clause)
    (id : value) (d : data) (w : Eff.world) (m : string) :
  (∀ o m', helper o jsToSql ≠ inl (NotFoundError m')) →
  (updateWith exec helper id d w).2 = inl (NotFoundError m) →
  ∃ o c,
    d = DObject o
    ∧ toBoolean (getProp o "id") = false
    ∧ toBoolean (getProp o "companyHandle") = false
    ∧ helper o jsToSql = inr c
    ∧ let q := Statement
                 (updateSql (Sql.setCols c)
                            ("$" +:+ pretty (length (Sql.values c) + 1)))
                 (Some (Sql.values c ++ [id])) in
      Eff.trace (updateWith exec helper id d w).1 = Eff.trace w ++ [Query q]
      ∧ (exec (Eff.database w) q).2 = inr []
      ∧ m = "No job with id of " +:+ toString id.
Proof.
  intros Hhelper. destruct d as [| |o]; [done..|].
  destruct (toBoolean (getProp o "id")) eqn:Hid.
  { unfold updateWith. rewrite Hid. done. }
  destruct (toBoolean (getProp o "companyHandle")) eqn:Hch.
  { unfold updateWith. rewrite Hid, Hch. done. }
  destruct (helper o jsToSql) as [e|c] eqn:Hc.
  { unfold updateWith. rewrite Hid, Hch, Hc. simpl.
    intros [= ->]. by destruct (Hhelper o m). }
  rewrite (JobFacts.updateWith_run _ _ _ _ _ _ Hid Hch Hc).
  intros Hres. exists o, c. repeat (split; [done|]). simpl.
  destruct (exec (Eff.database w) _) as [d1 [msg|[|row rest]]]; simpl in *;
    try done.
  by injection Hres as <-.
Qed.

Lemma update_not_found_after_query_witness :
  ∃ o c,
    DObject Fixture.updateData = DObject o
    ∧ toBoolean (getProp o "id") = false
    ∧ toBoolean (getProp o "companyHandle") = false
    ∧ Sql.sqlForPartialUpdate o jsToSql = inr c
    ∧ let q := Statement
                 (updateSql (Sql.setCols c)
                            ("$" +:+ pretty (length (Sql.values c) + 1)))
                 (Some (Sql.values c ++ [VNum 69])) in
      Eff.trace (updateWith Fixture.noRows Sql.sqlForPartialUpdate (VNum 69)
                            (DObject Fixture.updateData) Fixture.start).1
      = Eff.trace Fixture.start ++ [Query q]
      ∧ (Fixture.noRows (Eff.database Fixture.start) q).2 = inr []
      ∧ "No job with id of 69" = "No job with id of " +:+ toString (VNum 69).
Proof.
  apply (update_not_found_after_query Fixture.noRows Sql.sqlForPartialUpdate
           (VNum 69) (DObject Fixture.updateData) Fixture.start
           "No job with id of 69").
  - intros o m'. unfold Sql.sqlForPartialUpdate. case_decide; discriminate.
  - reflexivity.
Defined.

(** X15. Whatever helper builds the clause, the id never reaches the text
    of the statement [update] executes: two updates of the same payload
    under different ids run the same text, and their bindings are the
    clause's values followed by the respective id. *)
Theorem update_text_ignores_id {DB}
    (exec : DB → statement → DB * (string + list object))
    (helper : object → gmap string string → exn + Sql.clause)
    (id id' : value) (o : object) (c : Sql.clause) (w w' : Eff.world) :
  toBoolean (getProp o "id") = false →
  toBoolean (getProp o "companyHandle") = false →
  helper o jsToSql = inr c →
  ∃ q q',
    Eff.trace (updateWith exec helper id (DObject o) w).1
    = Eff.trace w ++ [Query q]
    ∧ Eff.trace (updateWith exec helper id' (DObject o) w').1
      = Eff.trace w' ++ [Query q']
    ∧ text q = text q'
    ∧ bindings q = Some (Sql.values c ++ [id])
    ∧ bindings q' = Some (Sql.values c ++ [id']).
Proof.
  intros Hid Hch Hc. eexists _, _.
  split; [exact (JobFacts.updateWith_trace exec helper id o c w Hid Hch Hc)|].
  split; [exact (JobFacts.updateWith_trace exec helper id' o c w' Hid Hch Hc)|].
  repeat split.
Qed.

Lemma update_text_ignores_id_witness :
  ∃ q q',
    Eff.trace (updateWith Fixture.noRows Sql.sqlForPartialUpdate (VNum 1)
                          (DObject Fixture.updateData) Fixture.start).1
    = Eff.trace Fixture.start ++ [Query q]
    ∧ Eff.trace (updateWith Fixture.noRows Sql.sqlForPartialUpdate
                            (VStr "1 OR 1=1")
                            (DObject Fixture.updateData) Fixture.start).1
      = Eff.trace Fixture.start ++ [Query q']
    ∧ text q = text q'
    ∧ bindings q
      = Some ([VStr "New"; VNum 999999; VStr "0.05"] ++ [VNum 1])
    ∧ bindings q'
      = Some ([VStr "New"; VNum 999999; VStr "0.05"] ++ [VStr "1 OR 1=1"]).
Proof.
  apply (update_text_ignores_id Fixture.noRows Sql.sqlForPartialUpdate
           (VNum 1) (VStr "1 OR 1=1") Fixture.updateData
           (Sql.Clause (dq +:+ "title" +:+ dq +:+ "=$1, " +:+
                        dq +:+ "salary" +:+ dq +:+ "=$2, " +:+
                        dq +:+ "equity" +:+ dq +:+ "=$3")
                       [VStr "New"; VNum 999999; VStr "0.05"])
           Fixture.start Fixture.start).
  - reflexivity.
  - reflexivity.
  - vm_compute. reflexivity.
Defined.

(** X16. [create] reads only the title, the salary, the equity and the
    company handle of its argument: two payloads that agree on these four
    properties, in whatever order and with whatever else beside them, give
    the same run. *)
Theorem create_reads_four_properties {DB}
    (exec : DB → statement → DB * (string + list object))
    (data data' : object) (w : Eff.world) :
  getProp data "title" = getProp data' "title" →
  getProp data "salary" = getProp data' "salary" →
  getProp data "equity" = getProp data' "equity" →
  getProp data "companyHandle" = getProp data' "companyHandle" →
  create exec data w = create exec data' w.
Proof.
  intros Ht Hs He Hc. unfold create. by rewrite Ht, Hs, He, Hc.
Qed.

Lemma create_reads_four_properties_witness :
  create Fixture.scripted Fixture.newJob
         (Fixture.scriptedStart [inr []; inr [Fixture.insertedRow]])
  = create Fixture.scripted
           (("id", VNum 7) :: reverse Fixture.newJob)
           (Fixture.scriptedStart [inr []; inr [Fixture.insertedRow]]).
Proof.
  apply (create_reads_four_properties Fixture.scripted Fixture.newJob
           (("id", VNum 7) :: reverse Fixture.newJob)
           (Fixture.scriptedStart [inr []; inr [Fixture.insertedRow]])).
  - reflexivity.
  - reflexivity.
  - reflexivity.
  - reflexivity.
Defined.

End JobMore.
